(** * llamamoonlight: the package initialiser and the packaging script

    The repository holds two Python files, [setup.py] and
    [llamamoonlight/__init__.py].  Both are embedded below as the list of
    their physical lines (blank, comment, or the statement that starts
    there), together with the part of Python that decides what happens when
    they are run: the compile-time check of call keywords, module lookup,
    [from ... import], [with open(...)], calls and assignments. *)

From Stdlib Require Import Ascii FunctionalExtensionality.
From stdpp Require Import gmap strings list.

Set Warnings "-register-all".

Local Open Scope char_scope.
Local Open Scope stdpp_scope.

(** ** Syntax *)

Module Ast.

(** Expressions: the constructors follow Python's [ast] node classes. *)
Inductive expr : Type :=
| Str (s : string)
| Name (id : string)
| Attribute (value : expr) (attr : string)
| ListE (elts : list expr)
| DictE (items : list (expr * expr))
| Call (func : expr) (args : list expr) (keywords : list (string * expr)).

(** Statements.  [ImportFrom level module names] is
    [from <level dots><module> import <names>]. *)
Inductive stmt : Type :=
| Expr (value : expr)
| Assign (target : string) (value : expr)
| ImportFrom (level : nat) (module : string) (names : list string)
| With (context : expr) (target : string) (body : list stmt)
| ClassDef (name : string) (body : list stmt)
| FunctionDef (name : string) (params : list string) (body : list stmt).

(** A physical line of a file.  [Code span s] is the first line of the
    statement [s], which occupies [span] physical lines in all.  A
    [Comment] holds the text of a comment line from its [#] on.  The lines
    are those of a file already decoded: decoding the bytes of a file and
    reading an encoding declaration come before and are not modelled; the
    two files of the repository are ASCII throughout. *)
Inductive line : Type :=
| Blank
| Comment (text : string)
| Code (span : nat) (s : stmt).

End Ast.
Export Ast.

Abbreviation source := (list line).

(** ** The two files *)

(** [llamamoonlight/__init__.py], 26 lines. *)
Definition init_py : source :=
  [ Code 3 (Expr (Str "
llamamoonlight - A powerful tool for working with moonlight data
"));
    Blank;
    Code 1 (Assign "__version__" (Str "0.1.0"));
    Blank;
    Code 1 (ImportFrom 1 "client" ["Client"; "Config"]);
    Blank;
    Code 1 (Assign "__all__" (ListE [Str "Client"; Str "Config"]));
    Blank;
    Comment "# Updated in commit 2 - 2025-04-04 17:22:51";
    Blank;
    Comment "# Updated in commit 10 - 2025-04-04 17:22:52";
    Blank;
    Comment "# Updated in commit 18 - 2025-04-04 17:22:53";
    Blank;
    Comment "# Updated in commit 26 - 2025-04-04 17:22:54";
    Blank;
    Comment "# Updated in commit 2 - 2025-04-05 14:31:02";
    Blank;
    Comment "# Updated in commit 10 - 2025-04-05 14:31:02";
    Blank;
    Comment "# Updated in commit 18 - 2025-04-05 14:31:02";
    Blank;
    Comment "# Updated in commit 26 - 2025-04-05 14:31:02";
    Blank ].

(** The [setup(...)] call of [setup.py], lines 6 to 67, keyword by keyword
    in the order of the file. *)
Definition setup_call : expr :=
  Call (Name "setup") []
    [ ("name", Str "llamamoonlight-llamasearch");
      ("version", Str "0.1.0");
      ("author", Str "LlamaSearch AI");
      ("author_email", Str "nikjois@llamasearch.ai");
      ("description",
        Str "A powerful library for AI-powered search and data processing");
      ("long_description", Name "long_description");
      ("long_description_content_type", Str "text/markdown");
      ("url", Str "https://llamasearch.ai");
      ("project_urls", DictE
        [ (Str "Bug Tracker",
           Str "https://github.com/llamasearchai/llamamoonlight/issues");
          (Str "Documentation",
           Str "https://llamasearchai.github.io/llamamoonlight/");
          (Str "Source Code",
           Str "https://github.com/llamasearchai/llamamoonlight") ]);
      ("classifiers", ListE
        [ Str "Programming Language :: Python :: 3";
          Str "Programming Language :: Python :: 3.8";
          Str "Programming Language :: Python :: 3.9";
          Str "Programming Language :: Python :: 3.10";
          Str "Programming Language :: Python :: 3.11";
          Str "License :: OSI Approved :: MIT License";
          Str "Operating System :: OS Independent";
          Str "Development Status :: 4 - Beta";
          Str "Intended Audience :: Developers";
          Str "Topic :: Software Development :: Libraries :: Python Modules";
          Str "Topic :: Scientific/Engineering :: Artificial Intelligence" ]);
      ("packages",
        Call (Name "find_packages") []
          [ ("include", ListE [Str "llamamoonlight"; Str "llamamoonlight.*"]) ]);
      ("python_requires", Str ">=3.8");
      ("install_requires", ListE
        [ Str "numpy>=1.20.0";
          Str "pandas>=1.3.0";
          Str "requests>=2.25.0";
          Str "tqdm>=4.62.0" ]);
      ("extras_require", DictE
        [ (Str "dev", ListE
            [ Str "pytest>=6.0.0";
              Str "pytest-cov>=2.12.0";
              Str "black>=21.5b2";
              Str "isort>=5.9.0";
              Str "flake8>=3.9.0";
              Str "mypy>=0.900" ]);
          (Str "mlx", ListE [ Str "mlx>=0.0.5" ]);
          (Str "all", ListE
            [ Str "mlx>=0.0.5";
              Str "matplotlib>=3.4.0";
              Str "seaborn>=0.11.0";
              Str "scikit-learn>=1.0.0" ]) ]);
      ("entry_points", DictE
        [ (Str "console_scripts", ListE
            [ Str "llamamoonlight=llamamoonlight.cli:main" ]) ]);
      ("package_dir", DictE [ (Str "", Str "src") ]);
      ("packages",
        Call (Name "find_packages") [] [ ("where", Str "src") ]) ].

(** The 32 marker comments that close [setup.py], lines 69 to 131; a blank
    line separates each from the next and the file ends on the last one. *)
Definition setup_markers : list string :=
  [ "# Updated in commit 5 - 2025-04-04 17:22:52";
    "# Updated in commit 13 - 2025-04-04 17:22:52";
    "# Updated in commit 21 - 2025-04-04 17:22:53";
    "# Updated in commit 29 - 2025-04-04 17:22:54";
    "# Updated in commit 5 - 2025-04-05 14:31:02";
    "# Updated in commit 13 - 2025-04-05 14:31:02";
    "# Updated in commit 21 - 2025-04-05 14:31:02";
    "# Updated in commit 29 - 2025-04-05 14:31:02";
    "# Updated in commit 5 - 2025-04-05 15:17:29";
    "# Updated in commit 13 - 2025-04-05 15:17:29";
    "# Updated in commit 21 - 2025-04-05 15:17:29";
    "# Updated in commit 29 - 2025-04-05 15:17:30";
    "# Updated in commit 5 - 2025-04-05 15:48:15";
    "# Updated in commit 13 - 2025-04-05 15:48:16";
    "# Updated in commit 21 - 2025-04-05 15:48:16";
    "# Updated in commit 29 - 2025-04-05 15:48:16";
    "# Updated in commit 5 - 2025-04-05 16:53:28";
    "# Updated in commit 13 - 2025-04-05 16:53:28";
    "# Updated in commit 21 - 2025-04-05 16:53:28";
    "# Updated in commit 29 - 2025-04-05 16:53:28";
    "# Updated in commit 5 - 2025-04-05 17:25:17";
    "# Updated in commit 13 - 2025-04-05 17:25:17";
    "# Updated in commit 21 - 2025-04-05 17:25:17";
    "# Updated in commit 29 - 2025-04-05 17:25:17";
    "# Updated in commit 5 - 2025-04-05 18:12:24";
    "# Updated in commit 13 - 2025-04-05 18:12:24";
    "# Updated in commit 21 - 2025-04-05 18:12:24";
    "# Updated in commit 29 - 2025-04-05 18:12:25";
    "# Updated in commit 5 - 2025-04-05 18:36:27";
    "# Updated in commit 13 - 2025-04-05 18:36:28";
    "# Updated in commit 21 - 2025-04-05 18:36:28";
    "# Updated in commit 29 - 2025-04-05 18:36:28" ].

(** Comment lines with a blank line between two of them and none at the
    ends. *)
Fixpoint interleave_blank (cs : list string) : source :=
  match cs with
  | [] => []
  | [c] => [Comment c]
  | c :: cs => Comment c :: Blank :: interleave_blank cs
  end.

(** [setup.py], 131 lines. *)
Definition setup_py : source :=
  [ Code 1 (ImportFrom 0 "setuptools" ["setup"; "find_packages"]);
    Blank;
    Code 2 (With
      (Call (Name "open") [Str "README.md"; Str "r"] [("encoding", Str "utf-8")])
      "fh"
      [ Assign "long_description" (Call (Attribute (Name "fh") "read") [] []) ]);
    Blank;
    Code 62 (Expr setup_call);
    Blank ]
  ++ interleave_blank setup_markers.

(** The source tree, keyed by the path from the repository root. *)
Definition repo : gmap string source :=
  <["setup.py" := setup_py]>
    (<["llamamoonlight/__init__.py" := init_py]> ∅).

(** ** Front end: statements, line numbers, the keyword check *)

(** The tokenizer gives the parser nothing for a blank line or a comment
    line; a statement keeps the number of the line it starts on. *)
Fixpoint parse_from (lineno : nat) (src : source) : list (nat * stmt) :=
  match src with
  | [] => []
  | Blank :: src => parse_from (S lineno) src
  | Comment _ :: src => parse_from (S lineno) src
  | Code span s :: src => (lineno, s) :: parse_from (lineno + span) src
  end.

Definition parse (src : source) : list (nat * stmt) := parse_from 1 src.

Definition statements (src : source) : list stmt := (parse src).*2.

(** Number of physical lines of a file. *)
Fixpoint physical_lines (src : source) : nat :=
  match src with
  | [] => 0
  | Code span _ :: src => span + physical_lines src
  | _ :: src => S (physical_lines src)
  end.

(** The check CPython's compiler runs on the keywords of a call
    ([validate_keywords]): the first keyword that occurs again further right
    is reported. *)
Fixpoint repeated_keyword (kws : list (string * expr)) : option string :=
  match kws with
  | [] => None
  | (k, _) :: kws =>
      if bool_decide (k ∈ kws.*1) then Some k else repeated_keyword kws
  end.

(** First of a list of checks that finds something. *)
Fixpoint first_some {A B} (f : A -> option B) (l : list A) : option B :=
  match l with
  | [] => None
  | x :: l => match f x with Some b => Some b | None => first_some f l end
  end.

Definition or_else {A} (o : option A) (k : option A) : option A :=
  match o with Some a => Some a | None => k end.

(** The repeated keyword of an expression, if a call inside it has one:
    the callee is compiled first, then the call's own keywords are checked,
    then the arguments are compiled. *)
Fixpoint expr_repeated (e : expr) : option string :=
  match e with
  | Str _ | Name _ => None
  | Attribute v _ => expr_repeated v
  | ListE es => first_some expr_repeated es
  | DictE items =>
      first_some (fun kv => or_else (expr_repeated kv.1) (expr_repeated kv.2))
        items
  | Call f args kws =>
      or_else (expr_repeated f)
        (or_else (repeated_keyword kws)
           (or_else (first_some expr_repeated args)
              (first_some (fun kw => expr_repeated kw.2) kws)))
  end.

Fixpoint stmt_repeated (s : stmt) : option string :=
  match s with
  | Expr e | Assign _ e => expr_repeated e
  | ImportFrom _ _ _ => None
  | With ctx _ body =>
      or_else (expr_repeated ctx) (first_some stmt_repeated body)
  | ClassDef _ body | FunctionDef _ _ body => first_some stmt_repeated body
  end.

(** ** Exceptions and results *)

Inductive exn : Type :=
| SyntaxError (msg : string)
| ModuleNotFoundError (name : string)
| ImportError (msg : string)
| FileNotFoundError (path : string)
| NameError (id : string)
| AttributeError (attr : string)
| TypeError (msg : string).

(** [Unsupported] marks Python behaviour outside the fragment modelled here,
    [OutOfFuel] an import chain deeper than the fuel given. *)
Inductive result (A : Type) : Type :=
| Ok (a : A)
| Raise (e : exn)
| Unsupported
| OutOfFuel.
Arguments Ok {A} a.
Arguments Raise {A} e.
Arguments Unsupported {A}.
Arguments OutOfFuel {A}.

(** Compilation of a whole file: it fails before any statement runs when
    some call repeats a keyword.  The message is worded as CPython 3.9 and
    later word it. *)
Definition compile (src : source) : result (list (nat * stmt)) :=
  let code := parse src in
  match first_some stmt_repeated code.*2 with
  | Some k => Raise (SyntaxError ("keyword argument repeated: " +:+ k))
  | None => Ok code
  end.

(** ** Run-time values, the world outside, the interpreter state *)

Inductive value : Type :=
| VNone
| VStr (s : string)
| VList (vs : list value)
| VDict (items : list (value * value))
| VOpen                                    (* the builtin [open] *)
| VFile (path : string)                    (* a text file open for reading *)
| VMethod (self : value) (attr : string)   (* a bound method *)
| VModule (name : string)
| VForeign (qualname : string)             (* an object of an installed module *)
| VResult (qualname : string) (args : list value)
    (kwargs : list (string * value))       (* what a foreign callable returned *)
| VFunction (name : string) (params : list string) (body : list stmt).

(** What a run does to the outside. *)
Inductive event : Type :=
| Opened (path : string)
| Closed (path : string)
| Called (qualname : string) (args : list value)
    (kwargs : list (string * value)).

(** A module in [sys.modules]: an installed one, of which only the name is
    known, or one loaded from the source tree, with its namespace. *)
Inductive module_obj : Type :=
| Installed
| Loaded (ns : gmap string value).

(** The world outside the repository: the text files [open] can read, by
    path from the working directory, each with its text as decoded, and the
    dotted names of the modules installed next to the interpreter. *)
Record world : Type := World {
  files : gmap string string;
  site_packages : gset string }.

(** [trace] lists, most recent first, the module and line of every
    module-level statement started. *)
Record state : Type := State {
  sys_modules : gmap string module_obj;
  trace : list (string * nat);
  events : list event }.

Definition initial : state :=
  {| sys_modules := ∅; trace := []; events := [] |}.

(** ** The interpreter monad: state and the four results *)

Definition M (A : Type) : Type := state -> result A * state.

#[global] Instance M_ret : MRet M := fun A a st => (Ok a, st).
#[global] Instance M_bind : MBind M := fun A B f m st =>
  match m st with
  | (Ok a, st') => f a st'
  | (Raise e, st') => (Raise e, st')
  | (Unsupported, st') => (Unsupported, st')
  | (OutOfFuel, st') => (OutOfFuel, st')
  end.

Definition raise {A} (e : exn) : M A := fun st => (Raise e, st).
Definition unsupported {A} : M A := fun st => (Unsupported, st).
Definition out_of_fuel {A} : M A := fun st => (OutOfFuel, st).
Definition get_modules : M (gmap string module_obj) :=
  fun st => (Ok (sys_modules st), st).
Definition set_modules (ms : gmap string module_obj) : M unit :=
  fun st => (Ok (), {| sys_modules := ms; trace := trace st; events := events st |}).
Definition emit (ev : event) : M unit :=
  fun st => (Ok (), {| sys_modules := sys_modules st; trace := trace st;
                       events := events st ++ [ev] |}).
Definition mark (cur : string) (lineno : nat) : M unit :=
  fun st => (Ok (), {| sys_modules := sys_modules st;
                       trace := (cur, lineno) :: trace st;
                       events := events st |}).

(** [try: m finally: h]. *)
Definition finally {A} (m : M A) (h : M unit) : M A := fun st =>
  match m st with
  | (r, st') =>
      match h st' with
      | (Ok _, st'') => (r, st'')
      | (Raise e, st'') => (Raise e, st'')
      | (Unsupported, st'') => (Unsupported, st'')
      | (OutOfFuel, st'') => (OutOfFuel, st'')
      end
  end.

(** ** Dotted names and paths *)

(** [s.split(c)]. *)
Fixpoint split_on (c : ascii) (s : string) : list string :=
  match s with
  | "" => [""]
  | String a s =>
      match split_on c s with
      | [] => [String a ""]
      | h :: t => if Ascii.eqb a c then "" :: h :: t else String a h :: t
      end
  end.

(** [name.rpartition('.')]: the parent package and the last component, or
    [None] for a top-level name. *)
Definition rpartition_dot (name : string) : option (string * string) :=
  let comps := split_on "." name in
  match last comps with
  | Some child =>
      if bool_decide (length comps ≤ 1) then None
      else Some (String.concat "." (removelast comps), child)
  | None => None
  end.

Definition dotted (parent child : string) : string :=
  if bool_decide (parent = "") then child else parent +:+ "." +:+ child.

Definition path_join (dir name : string) : string :=
  if bool_decide (dir = "") then name else dir +:+ "/" +:+ name.

(** ** The interpreter *)

Section Interp.

Variable w : world.

Definition namespace_of (ms : gmap string module_obj) (cur : string)
  : gmap string value :=
  match ms !! cur with
  | Some (Loaded ns) => ns
  | _ => ∅
  end.

(** A name is looked up in the globals of the running module and then in
    the builtins, of which [open] is the one modelled. *)
Definition lookup_name (cur id : string) : M value :=
  ms ← get_modules;
  match namespace_of ms cur !! id with
  | Some v => mret v
  | None =>
      if bool_decide (id = "open") then mret VOpen else raise (NameError id)
  end.

Definition bind_name (cur x : string) (v : value) : M unit :=
  ms ← get_modules;
  set_modules (<[cur := Loaded (<[x := v]> (namespace_of ms cur))]> ms).

Definition getattr (v : value) (attr : string) : M value :=
  match v with
  | VFile _ =>
      if bool_decide (attr = "read") then mret (VMethod v attr)
      else unsupported
  | VModule name =>
      ms ← get_modules;
      match ms !! name with
      | Some Installed => mret (VForeign (dotted name attr))
      | Some (Loaded ns) =>
          match ns !! attr with
          | Some v => mret v
          | None => raise (AttributeError attr)
          end
      | None => unsupported
      end
  | VForeign q => mret (VForeign (dotted q attr))
  | _ => unsupported
  end.

Definition is_read_mode (rest : list value) : bool :=
  match rest with
  | [] => true
  | [VStr mode] => bool_decide (mode = "r")
  | _ => false
  end.

(** [open(path, "r", encoding=...)] raises when the file is absent;
    [fh.read()] gives the text; a foreign callable is recorded with what it
    received and answers with an opaque result: what an installed library
    does when called, failing included, is outside the model. *)
Definition call (f : value) (args : list value)
    (kwargs : list (string * value)) : M value :=
  match f with
  | VOpen =>
      match args with
      | VStr path :: rest =>
          if is_read_mode rest
             && forallb (fun kw => bool_decide (kw.1 = "encoding")) kwargs
          then
            match files w !! path with
            | Some _ => emit (Opened path);; mret (VFile path)
            | None => raise (FileNotFoundError path)
            end
          else unsupported
      | _ => unsupported
      end
  | VMethod (VFile path) attr =>
      match args, kwargs, files w !! path with
      | [], [], Some text =>
          if bool_decide (attr = "read") then mret (VStr text)
          else unsupported
      | _, _, _ => unsupported
      end
  | VForeign q => emit (Called q args kwargs);; mret (VResult q args kwargs)
  | VNone | VStr _ | VList _ | VDict _ | VFile _ | VModule _ =>
      raise (TypeError "object is not callable")
  | _ => unsupported
  end.

(** Evaluation order is Python's: callee, positional arguments, keyword
    values, each left to right; a dict item evaluates its key first. *)
Fixpoint eval (cur : string) (e : expr) : M value :=
  match e with
  | Str s => mret (VStr s)
  | Name id => lookup_name cur id
  | Attribute e attr => v ← eval cur e; getattr v attr
  | ListE es => vs ← mapM (eval cur) es; mret (VList vs)
  | DictE items =>
      kvs ← mapM (fun kv => k ← eval cur kv.1; v ← eval cur kv.2;
                            mret (k, v)) items;
      mret (VDict kvs)
  | Call f args kws =>
      fv ← eval cur f;
      avs ← mapM (eval cur) args;
      kvs ← mapM (fun kw => v ← eval cur kw.2; mret (kw.1, v)) kws;
      call fv avs kvs
  end.

(** [for x in l: f(x)]. *)
Definition each {A} (f : A -> M unit) : list A -> M unit :=
  fix go l :=
    match l with
    | [] => mret ()
    | x :: l => f x;; go l
    end.

Section Exec.

(** [imp name] imports the module of that absolute dotted name. *)
Variable imp : string -> M unit.

(** importlib's [_resolve_name] after its [_sanity_check]. *)
Definition resolve_name (cur : string) (level : nat) (m : string) : M string :=
  match level with
  | 0 => mret m
  | S up =>
      ms ← get_modules;
      match namespace_of ms cur !! "__package__" with
      | Some (VStr (String c pkg')) =>
          let comps := split_on "." (String c pkg') in
          if bool_decide (length comps ≤ up) then
            raise (ImportError
              "attempted relative import beyond top-level package")
          else
            let base := String.concat "." (take (length comps - up) comps) in
            mret (if bool_decide (m = "") then base else base +:+ "." +:+ m)
      | _ =>
          raise (ImportError
            "attempted relative import with no known parent package")
      end
  end.

(** Run [m]; a [ModuleNotFoundError] for exactly [name] is swallowed. *)
Definition catch_missing (name : string) (m : M unit) : M unit := fun st =>
  match m st with
  | (Raise (ModuleNotFoundError nm), st') =>
      if bool_decide (nm = name) then (Ok (), st')
      else (Raise (ModuleNotFoundError nm), st')
  | r => r
  end.

(** importlib's [_handle_fromlist] for one name: a name the package does
    not have yet is tried as a submodule. *)
Definition try_submodule (abs n : string) : M unit :=
  ms ← get_modules;
  match ms !! abs with
  | Some (Loaded ns) =>
      if bool_decide (is_Some (ns !! n)) then mret ()
      else if bool_decide (is_Some (ns !! "__path__")) then
        catch_missing (dotted abs n) (imp (dotted abs n))
      else mret ()
  | _ => mret ()
  end.

(** The [IMPORT_FROM] instruction. *)
Definition import_attr (abs n : string) : M value :=
  ms ← get_modules;
  match ms !! abs with
  | Some Installed => mret (VForeign (dotted abs n))
  | Some (Loaded ns) =>
      match ns !! n with
      | Some v => mret v
      | None =>
          match ms !! dotted abs n with
          | Some _ => mret (VModule (dotted abs n))
          | None => raise (ImportError ("cannot import name " +:+ n))
          end
      end
  | None => unsupported
  end.

Definition import_from (cur : string) (level : nat) (m : string)
    (names : list string) : M unit :=
  abs ← resolve_name cur level m;
  imp abs;;
  each (try_submodule abs) names;;
  each (fun n => v ← import_attr abs n; bind_name cur n v) names.

Fixpoint exec (cur : string) (s : stmt) : M unit :=
  match s with
  | Expr e => _ ← eval cur e; mret ()
  | Assign x e => v ← eval cur e; bind_name cur x v
  | ImportFrom level m names => import_from cur level m names
  | With ctx x body =>
      v ← eval cur ctx;
      match v with
      | VFile path =>
          bind_name cur x v;;
          finally (each (exec cur) body) (emit (Closed path))
      | _ => unsupported
      end
  | ClassDef _ _ => unsupported
  | FunctionDef f params body => bind_name cur f (VFunction f params body)
  end.

Definition exec_line (cur : string) (ls : nat * stmt) : M unit :=
  mark cur ls.1;; exec cur ls.2.

(** The body of a module: a leading string literal is its docstring. *)
Definition run_code (cur : string) (code : list (nat * stmt)) : M unit :=
  match code with
  | (lineno, Expr (Str doc)) :: rest =>
      mark cur lineno;;
      bind_name cur "__doc__" (VStr doc);;
      each (exec_line cur) rest
  | _ => each (exec_line cur) code
  end.

End Exec.

End Interp.

(** ** Finding and loading modules *)

(** What the path finder found: a file of the source tree (with its
    directory when it is a package), or an installed module. *)
Inductive found : Type :=
| FoundSource (src : source) (pkgdir : option string)
| FoundInstalled.

Definition lift {A} (r : result A) : M A := fun st => (r, st).

(** Run [m]; when it does not end normally, run [h] and keep [m]'s result. *)
Definition on_failure {A} (m : M A) (h : M unit) : M A := fun st =>
  match m st with
  | (Ok a, st') => (Ok a, st')
  | (r, st') => (r, (h st').2)
  end.

Section Loader.

(** The source tree, the world, and the directory of the tree that heads
    [sys.path]. *)
Variable tree : gmap string source.
Variable w : world.
Variable root : string.

(** A directory [child/] with an [__init__.py] is preferred to a file
    [child.py].  Namespace packages, bytecode files and extension modules
    are not modelled: the finder is Python's for a tree in which every
    candidate for [child] is one of these two files, as in the repository;
    the properties about other trees below fix the package directory for
    that reason. *)
Definition find_in_dir (dir child : string) : option found :=
  let base := path_join dir child in
  match tree !! (base +:+ "/__init__.py") with
  | Some src => Some (FoundSource src (Some base))
  | None =>
      match tree !! (base +:+ ".py") with
      | Some src => Some (FoundSource src None)
      | None => None
      end
  end.

(** The directory a package's [__path__] names. *)
Definition package_path (ns : gmap string value) : option string :=
  match ns !! "__path__" with
  | Some (VList [VStr dir]) => Some dir
  | _ => None
  end.

(** A top-level name is searched in the source tree and then among the
    installed modules; a submodule only along its parent's [__path__]. *)
Definition find_spec (ms : gmap string module_obj) (name : string)
  : option found :=
  match rpartition_dot name with
  | None =>
      match find_in_dir root name with
      | Some f => Some f
      | None =>
          if bool_decide (name ∈ site_packages w) then Some FoundInstalled
          else None
      end
  | Some (parent, child) =>
      match ms !! parent with
      | Some (Loaded ns) =>
          match package_path ns with
          | Some dir => find_in_dir dir child
          | None => None
          end
      | Some Installed =>
          if bool_decide (name ∈ site_packages w) then Some FoundInstalled
          else None
      | None => None
      end
  end.

(** The namespace a module starts with. *)
Definition module_namespace (name : string) (pkgdir : option string)
  : gmap string value :=
  let ns := <["__name__" := VStr name]> (<["__doc__" := VNone]> ∅) in
  match pkgdir with
  | Some dir =>
      <["__package__" := VStr name]> (<["__path__" := VList [VStr dir]]> ns)
  | None =>
      <["__package__" :=
          VStr (match rpartition_dot name with
                | Some (parent, _) => parent
                | None => ""
                end)]> ns
  end.

Definition unload (name : string) : M unit :=
  ms ← get_modules; set_modules (delete name ms).

(** After a submodule is loaded it becomes an attribute of its parent. *)
Definition set_parent_attr (name : string) : M unit :=
  match rpartition_dot name with
  | Some (parent, child) =>
      ms ← get_modules;
      match ms !! parent with
      | Some (Loaded _) => bind_name parent child (VModule name)
      | _ => mret ()
      end
  | None => mret ()
  end.

(** importlib's [_find_and_load]: a module already in [sys.modules] is not
    loaded again. *)
Definition cached (load : string -> M unit) (name : string) : M unit :=
  ms ← get_modules;
  if bool_decide (is_Some (ms !! name)) then mret () else load name.

(** importlib's [_find_and_load_unlocked] and [_load_unlocked]: the parent
    package is imported first; the module is entered in [sys.modules]
    before its body runs and removed again when compiling or running the
    body fails.  [fuel] bounds the depth of nested loads. *)
Fixpoint find_and_load (fuel : nat) (name : string) : M unit :=
  match fuel with
  | 0 => out_of_fuel
  | S fuel =>
      match rpartition_dot name with
      | Some (parent, _) => cached (find_and_load fuel) parent
      | None => mret ()
      end;;
      ms ← get_modules;
      if bool_decide (is_Some (ms !! name)) then mret () else
      match find_spec ms name with
      | None => raise (ModuleNotFoundError name)
      | Some FoundInstalled => set_modules (<[name := Installed]> ms)
      | Some (FoundSource src pkgdir) =>
          set_modules (<[name := Loaded (module_namespace name pkgdir)]> ms);;
          on_failure
            (code ← lift (compile src);
             run_code w (cached (find_and_load fuel)) name code)
            (unload name);;
          set_parent_attr name
      end
  end.

Definition import_module (fuel : nat) (name : string) : M unit :=
  cached (find_and_load fuel) name.

(** What an entry point [module:attr] resolves to: the module is imported
    and the attribute read from it. *)
Definition load_object (fuel : nat) (module attr : string) : M value :=
  import_module fuel module;;
  getattr (VModule module) attr.

End Loader.

(** [os.path.dirname]. *)
Definition dirname (path : string) : string :=
  String.concat "/" (removelast (split_on "/" path)).

(** The namespace of a file run as a script. *)
Definition main_namespace : gmap string value :=
  <["__name__" := VStr "__main__"]>
    (<["__doc__" := VNone]> (<["__package__" := VNone]> ∅)).

(** [python path], started in the root of the tree: module [__main__] is
    there before the file is compiled; the file then runs in it; its
    directory heads [sys.path]. *)
Definition run_script (tree : gmap string source) (w : world) (fuel : nat)
    (path : string) : M unit :=
  match tree !! path with
  | None => unsupported
  | Some src =>
      ms ← get_modules;
      set_modules (<["__main__" := Loaded main_namespace]> ms);;
      code ← lift (compile src);
      run_code w (import_module tree w (dirname path) fuel) "__main__" code
  end.

(** [import name] in an interpreter started in the root of the tree. *)
Definition import_top (tree : gmap string source) (w : world) (fuel : nat)
    (name : string) : M unit :=
  import_module tree w "" fuel name.

(** ** Reading the packaging metadata off [setup.py] *)

(** The module-level calls [f(...)] of a file. *)
Definition calls_to (f : string) (src : source) : list expr :=
  omap (fun s =>
          match s with
          | Expr (Call (Name g) args kws) =>
              if bool_decide (g = f) then Some (Call (Name g) args kws)
              else None
          | _ => None
          end) (statements src).

(** Every value a call gives to keyword [k], in the order written. *)
Definition keyword_values (k : string) (e : expr) : list expr :=
  match e with
  | Call _ _ kws =>
      omap (fun kw => if bool_decide (kw.1 = k) then Some kw.2 else None) kws
  | _ => []
  end.

(** The values the [setup(...)] call of a file gives to keyword [k]. *)
Definition setup_keyword (k : string) (src : source) : list expr :=
  flat_map (keyword_values k) (calls_to "setup" src).

(** The string literals of a list display. *)
Definition str_list (e : expr) : list string :=
  match e with
  | ListE es => omap (fun e => match e with Str s => Some s | _ => None end) es
  | _ => []
  end.

(** The items of a dict display whose key is a string literal. *)
Definition dict_items (e : expr) : list (string * expr) :=
  match e with
  | DictE items =>
      omap (fun kv => match kv.1 with Str k => Some (k, kv.2) | _ => None end)
        items
  | _ => []
  end.

Definition install_requires (src : source) : list string :=
  flat_map str_list (setup_keyword "install_requires" src).

(** Each extra with the requirements listed under it. *)
Definition extras_require (src : source) : list (string * list string) :=
  map (fun kv => (kv.1, str_list kv.2))
    (flat_map dict_items (setup_keyword "extras_require" src)).


(** The distribution name a requirement starts with: letters, digits,
    [-], [_] and [.], up to the version specifier. *)
Definition is_name_char (c : ascii) : bool :=
  (("0" <=? c) && (c <=? "9")) || (("A" <=? c) && (c <=? "Z"))
  || (("a" <=? c) && (c <=? "z"))
  || Ascii.eqb c "-" || Ascii.eqb c "_" || Ascii.eqb c ".".

Fixpoint requirement_name (r : string) : string :=
  match r with
  | String c r => if is_name_char c then String c (requirement_name r) else ""
  | "" => ""
  end.




(** ** Names a file uses and names it defines *)

(** Identifiers read by an expression: names and attribute names. *)
Fixpoint expr_identifiers (e : expr) : list string :=
  match e with
  | Str _ => []
  | Name id => [id]
  | Attribute v attr => expr_identifiers v ++ [attr]
  | ListE es => flat_map expr_identifiers es
  | DictE items =>
      flat_map (fun kv => expr_identifiers kv.1 ++ expr_identifiers kv.2)
        items
  | Call f args kws =>
      expr_identifiers f ++ flat_map expr_identifiers args
        ++ flat_map (fun kw => expr_identifiers kw.2) kws
  end.

(** Modules a statement imports. *)
Fixpoint stmt_imports (s : stmt) : list string :=
  match s with
  | ImportFrom _ m _ => [m]
  | With _ _ body | ClassDef _ body | FunctionDef _ _ body =>
      flat_map stmt_imports body
  | _ => []
  end.

(** Names a statement defines: assignment and [with] targets, classes,
    functions and their parameters.  A name that is only imported is not
    defined by the file that imports it. *)
Fixpoint stmt_defines (s : stmt) : list string :=
  match s with
  | Expr _ | ImportFrom _ _ _ => []
  | Assign x _ => [x]
  | With _ x body => x :: flat_map stmt_defines body
  | ClassDef c body => c :: flat_map stmt_defines body
  | FunctionDef f params body => f :: params ++ flat_map stmt_defines body
  end.

(** The classes and functions of a statement, methods included. *)
Fixpoint stmt_classes_functions (s : stmt) : list string :=
  match s with
  | With _ _ body => flat_map stmt_classes_functions body
  | ClassDef c body => c :: flat_map stmt_classes_functions body
  | FunctionDef f _ body => f :: flat_map stmt_classes_functions body
  | _ => []
  end.

(** Everything a statement refers to: the modules it imports, whole and by
    component, the names it imports from them, the identifiers of its
    expressions and the names it defines. *)
Fixpoint stmt_references (s : stmt) : list string :=
  match s with
  | Expr e => expr_identifiers e
  | Assign x e => x :: expr_identifiers e
  | ImportFrom _ m names => (m :: split_on "." m) ++ names
  | With ctx x body =>
      expr_identifiers ctx ++ x :: flat_map stmt_references body
  | ClassDef c body => c :: flat_map stmt_references body
  | FunctionDef f params body => f :: params ++ flat_map stmt_references body
  end.

Definition references (src : source) : list string :=
  flat_map stmt_references (statements src).

Definition imports (src : source) : list string :=
  flat_map stmt_imports (statements src).

Definition defines (src : source) : list string :=
  flat_map stmt_defines (statements src).

Definition classes_functions (src : source) : list string :=
  flat_map stmt_classes_functions (statements src).

(** The names [from ... import] brings into a file, and the strings of its
    [__all__]. *)
Definition imported_names (src : source) : list string :=
  flat_map (fun s => match s with ImportFrom _ _ names => names | _ => [] end)
    (statements src).

Definition assigned (x : string) (src : source) : list expr :=
  omap (fun s =>
          match s with
          | Assign y e => if bool_decide (y = x) then Some e else None
          | _ => None
          end) (statements src).

Definition dunder_all (src : source) : list string :=
  flat_map str_list (assigned "__all__" src).


(** ** Removing comment lines *)

Definition is_update_marker (text : string) : bool :=
  String.prefix "# Updated in commit " text.

(** The file without the comment lines [drop] selects. *)
Definition strip (drop : string -> bool) (src : source) : source :=
  List.filter (fun l => match l with
                        | Comment text => negb (drop text)
                        | _ => true
                        end) src.

Definition comment_lines (src : source) : list string :=
  omap (fun l => match l with Comment text => Some text | _ => None end) src.

Definition code_free (src : source) : bool :=
  forallb (fun l => match l with Code _ _ => false | _ => true end) src.

Definition comment_free (src : source) : bool :=
  forallb (fun l => match l with Comment _ => false | _ => true end) src.

(** What one call event handed to keyword [k]; the first call to [q] in
    the list decides. *)
Fixpoint received (q k : string) (evs : list event) : option value :=
  match evs with
  | Called q' _ kwargs :: evs =>
      if bool_decide (q' = q) then
        last (omap (fun kw => if bool_decide (kw.1 = k) then Some kw.2
                              else None) kwargs)
      else received q k evs
  | _ :: evs => received q k evs
  | [] => None
  end.

(** Two trees hold the same code when their files parse to the same
    numbered statements. *)
Definition same_code (t1 t2 : gmap string source) : Prop :=
  forall path, parse <$> (t1 !! path) = parse <$> (t2 !! path).

(** What the path finder found is the same up to that. *)
Definition same_found (f1 f2 : option found) : Prop :=
  match f1, f2 with
  | Some (FoundSource s1 d1), Some (FoundSource s2 d2) =>
      parse s1 = parse s2 /\ d1 = d2
  | Some FoundInstalled, Some FoundInstalled => True
  | None, None => True
  | _, _ => False
  end.

(** ** More of the packaging metadata *)

(** The keywords of a call, in the order written. *)
Definition keywords_of (e : expr) : list (string * expr) :=
  match e with
  | Call _ _ kws => kws
  | _ => []
  end.

(** [package_dir]: which directory holds which package ([""] is the root
    of all packages). *)
Definition package_dir (src : source) : list (string * string) :=
  omap (fun kv => match kv.2 with Str d => Some (kv.1, d) | _ => None end)
    (flat_map dict_items (setup_keyword "package_dir" src)).

Definition python_requires (src : source) : list string :=
  omap (fun e => match e with Str s => Some s | _ => None end)
    (setup_keyword "python_requires" src).

Definition classifiers (src : source) : list string :=
  flat_map str_list (setup_keyword "classifiers" src).

(** [s] without the prefix [p], when it starts with it. *)
Fixpoint strip_prefix (p s : string) : option string :=
  match p, s with
  | "", _ => Some s
  | String a p, String b s =>
      if Ascii.eqb a b then strip_prefix p s else None
  | String _ _, "" => None
  end.

(** The Python versions the classifiers advertise. *)
Definition python_versions (src : source) : list string :=
  omap (strip_prefix "Programming Language :: Python :: ") (classifiers src).

Definition digit_value (c : ascii) : option nat :=
  if ("0" <=? c) && (c <=? "9") then Some (nat_of_ascii c - 48) else None.

(** A run of decimal digits as a number; [None] for anything else. *)
Definition parse_nat (s : string) : option nat :=
  match s with
  | "" => None
  | _ =>
      (fix go (acc : nat) (s : string) : option nat :=
         match s with
         | "" => Some acc
         | String c s =>
             match digit_value c with
             | Some d => go (10 * acc + d) s
             | None => None
             end
         end) 0 s
  end.

(** A release number [N.N...] as the list of its components. *)
Definition parse_version (s : string) : option (list nat) :=
  mapM parse_nat (split_on "." s).

(** Release numbers compare component by component, a missing component
    counting as zero. *)
Fixpoint version_leb (a b : list nat) : bool :=
  match a, b with
  | [], _ => true
  | x :: a, [] => (x =? 0)%nat && version_leb a []
  | x :: a, y :: b => (x <? y)%nat || ((x =? y)%nat && version_leb a b)
  end.

(** The bound of a specifier [>=N.N]. *)
Definition lower_bound (spec : string) : option (list nat) :=
  match strip_prefix ">=" spec with
  | Some v => parse_version v
  | None => None
  end.

Definition is_version_char (c : ascii) : bool :=
  (("0" <=? c) && (c <=? "9")) || (("a" <=? c) && (c <=? "z"))
  || Ascii.eqb c ".".

Fixpoint all_chars (p : ascii -> bool) (s : string) : bool :=
  match s with
  | "" => true
  | String c s => p c && all_chars p s
  end.

(** A requirement of the form [name>=version], split in two; [None] for a
    requirement of any other form. *)
Definition split_requirement (r : string) : option (string * string) :=
  let name := requirement_name r in
  match strip_prefix name r with
  | Some rest =>
      match strip_prefix ">=" rest with
      | Some v =>
          if negb (String.eqb name "") && negb (String.eqb v "")
             && all_chars is_version_char v
          then Some (name, v) else None
      | None => None
      end
  | None => None
  end.

(** Every requirement [setup.py] declares, runtime dependencies first, then
    the extras in the order written. *)
Definition all_requirements (src : source) : list string :=
  install_requires src ++ flat_map snd (extras_require src).

(** The requirements listed under one extra. *)
Definition extra (name : string) (src : source) : list string :=
  flat_map (fun kv => if bool_decide (kv.1 = name) then kv.2 else [])
    (extras_require src).



(** ** Worlds and a variant file for the examples *)

(** A world in which [README.md] can be read and setuptools is installed. *)
Definition w_ready : world :=
  {| files := {["README.md" := "# llamamoonlight"]};
     site_packages := {["setuptools"]} |}.

(** The same without [README.md]. *)
Definition w_no_readme : world :=
  {| files := ∅; site_packages := {["setuptools"]} |}.

(** Nothing installed, nothing to read. *)
Definition w_bare : world := {| files := ∅; site_packages := ∅ |}.

Fixpoint remove_first_keyword (k : string) (kws : list (string * expr))
  : list (string * expr) :=
  match kws with
  | [] => []
  | kw :: kws =>
      if bool_decide (kw.1 = k) then kws else kw :: remove_first_keyword k kws
  end.

(** Not a file of the repository: [src] with the first keyword [k] of each
    module-level call taken out.  The examples below run [setup.py] in
    this form to show what the keyword check keeps from happening. *)
Definition without_first_keyword (k : string) (src : source) : source :=
  map (fun l =>
         match l with
         | Code span (Expr (Call f args kws)) =>
             Code span (Expr (Call f args (remove_first_keyword k kws)))
         | l => l
         end) src.

Definition repo_single_packages : gmap string source :=
  <["setup.py" := without_first_keyword "packages" setup_py]> repo.

(** Not a tree of the repository either: the repository with a stand-in
    [llamamoonlight/client.py] that binds the two names line 7 asks for. *)
Definition repo_with_client : gmap string source :=
  <["llamamoonlight/client.py" :=
      [ Code 1 (Assign "Client" (Str "stand-in"));
        Code 1 (Assign "Config" (Str "stand-in")) ]]> repo.

(** The repository with a [llamamoonlight/cli.py] that defines [main]. *)
Definition repo_with_cli : gmap string source :=
  <["llamamoonlight/cli.py" :=
      [ Code 2 (FunctionDef "main" [] [Expr (Str "entry point")]) ]]> repo.

(** [src] with the keyword of index [i] (from 0) taken out of each
    module-level call. *)
Definition delete_keyword (i : nat) (src : source) : source :=
  map (fun l =>
         match l with
         | Code span (Expr (Call f args kws)) =>
             Code span (Expr (Call f args (delete i kws)))
         | l => l
         end) src.

(** * Properties *)

(** ** The files as embedded *)

Lemma init_py_lines : physical_lines init_py = 26.
Proof. reflexivity. Qed.

Lemma setup_py_lines : physical_lines setup_py = 131.
Proof. reflexivity. Qed.

(** Statements start on lines 1, 5, 7, 9 of [__init__.py] and on lines
    1, 3, 6 of [setup.py]. *)
Lemma init_py_linenos : (parse init_py).*1 = [1; 5; 7; 9].
Proof. reflexivity. Qed.

Lemma setup_py_linenos : (parse setup_py).*1 = [1; 3; 6].
Proof. reflexivity. Qed.

Lemma setup_py_calls_setup : calls_to "setup" setup_py = [setup_call].
Proof. reflexivity. Qed.

Lemma repo_files (path : string) (src : source) :
  repo !! path = Some src ->
  (path = "setup.py" /\ src = setup_py)
  \/ (path = "llamamoonlight/__init__.py" /\ src = init_py).
Proof.
  unfold repo. rewrite lookup_insert_Some.
  intros [[<- <-] | [_ H]]; [by left | right].
  apply lookup_insert_Some in H as [[<- <-] | [_ H]]; [done |].
  by rewrite lookup_empty in H.
Qed.

Lemma repo_setup_py : repo !! "setup.py" = Some setup_py.
Proof. reflexivity. Qed.


(** ** The interpreter at work *)

(** With one [packages=] the script runs: it reads [README.md], calls
    [find_packages] and hands its result to [setup]. *)
Example single_packages_runs :
  let r := run_script repo_single_packages w_ready 2 "setup.py" initial in
  r.1 = Ok ()
  /\ trace r.2 = [("__main__", 6); ("__main__", 3); ("__main__", 1)]
  /\ take 3 (events r.2) =
       [ Opened "README.md"; Closed "README.md";
         Called "setuptools.find_packages" [] [("where", VStr "src")] ]
  /\ received "setuptools.setup" "packages" (events r.2) =
       Some (VResult "setuptools.find_packages" [] [("where", VStr "src")])
  /\ received "setuptools.setup" "long_description" (events r.2) =
       Some (VStr "# llamamoonlight").
Proof. vm_compute. repeat split; reflexivity. Qed.

(** There the missing [README.md] is what stops the script, on line 3. *)
Example single_packages_needs_readme :
  let r := run_script repo_single_packages w_no_readme 2 "setup.py" initial in
  r.1 = Raise (FileNotFoundError "README.md")
  /\ trace r.2 = [("__main__", 3); ("__main__", 1)]
  /\ events r.2 = [].
Proof. vm_compute. repeat split; reflexivity. Qed.

(** And without setuptools it stops on line 1. *)
Example single_packages_needs_setuptools :
  let r := run_script repo_single_packages w_bare 2 "setup.py" initial in
  r.1 = Raise (ModuleNotFoundError "setuptools")
  /\ trace r.2 = [("__main__", 1)].
Proof. vm_compute. repeat split; reflexivity. Qed.

(** With a stand-in [client.py] the package imports: all four statements
    run and the namespace ends up with the names of [__all__]. *)
Example with_client_imports :
  let r := import_top repo_with_client w_bare 2 "llamamoonlight" initial in
  r.1 = Ok ()
  /\ trace r.2 =
       [ ("llamamoonlight", 9);
         ("llamamoonlight.client", 2); ("llamamoonlight.client", 1);
         ("llamamoonlight", 7); ("llamamoonlight", 5); ("llamamoonlight", 1) ]
  /\ namespace_of (sys_modules r.2) "llamamoonlight" !! "Client" =
       Some (VStr "stand-in")
  /\ namespace_of (sys_modules r.2) "llamamoonlight" !! "__all__" =
       Some (VList [VStr "Client"; VStr "Config"])
  /\ namespace_of (sys_modules r.2) "llamamoonlight" !! "client" =
       Some (VModule "llamamoonlight.client").
Proof. vm_compute. repeat split; reflexivity. Qed.

(** Even then the console script has no module to load. *)
Example with_client_no_cli :
  (load_object repo_with_client w_bare "" 3 "llamamoonlight.cli" "main"
     initial).1
  = Raise (ModuleNotFoundError "llamamoonlight.cli").
Proof. vm_compute. reflexivity. Qed.

(** Run as a script, [__init__.py] has no parent package to import from. *)
Example init_py_as_script (w : world) (n : nat) :
  (run_script repo w n "llamamoonlight/__init__.py" initial).1 =
    Raise (ImportError
             "attempted relative import with no known parent package").
Proof. vm_compute. reflexivity. Qed.

(** ** Running [setup.py] *)

Lemma compile_setup_py :
  compile setup_py = Raise (SyntaxError "keyword argument repeated: packages").
Proof. reflexivity. Qed.

(** Whatever the world, the fuel and the interpreter state, the script is
    rejected: [__main__] stays as it was set up, nothing is traced and
    nothing happens outside. *)
Lemma run_setup_py (w : world) (fuel : nat) (st : state) :
  run_script repo w fuel "setup.py" st =
    (Raise (SyntaxError "keyword argument repeated: packages"),
     {| sys_modules := <["__main__" := Loaded main_namespace]> (sys_modules st);
        trace := trace st;
        events := events st |}).
Proof.
  unfold run_script. rewrite repo_setup_py.
  unfold mbind, M_bind, lift, get_modules, set_modules.
  by rewrite compile_setup_py.
Qed.

(** C9: every run of [setup.py] ends in the SyntaxError for the repeated
    keyword [packages], raised when the file is compiled: whatever the
    world (so whether or not [README.md] exists) and whatever the
    interpreter state, no line is traced, no file is opened, nothing is
    called and the namespace of [__main__] stays as it was set up;
    importing the file as module [setup] ends the same way. *)
Theorem setup_py_syntax_error (w : world) (fuel : nat) (st : state) :
  compile setup_py = Raise (SyntaxError "keyword argument repeated: packages")
  /\ run_script repo w fuel "setup.py" st =
       (Raise (SyntaxError "keyword argument repeated: packages"),
        {| sys_modules :=
             <["__main__" := Loaded main_namespace]> (sys_modules st);
           trace := trace st;
           events := events st |})
  /\ import_top repo w (S fuel) "setup" initial =
       (Raise (SyntaxError "keyword argument repeated: packages"), initial).
Proof.
  rewrite run_setup_py. repeat (split; [reflexivity |]).
  vm_compute. reflexivity.
Qed.

(** C2, as stated, fails: with [README.md] present and setuptools
    installed, [setup] still does not receive
    [find_packages(where="src")] as [packages]. *)
Lemma packages_override_refuted :
  received "setuptools.setup" "packages"
    (events (run_script repo w_ready 2 "setup.py" initial).2)
  <> Some (VResult "setuptools.find_packages" [] [("where", VStr "src")]).
Proof. vm_compute. discriminate. Qed.

(** C2, amended: the [setup(...)] call is written with [packages=] twice,
    first [find_packages(include=[...])], then [find_packages(where="src")];
    the repeated keyword makes every run end in a SyntaxError at compile
    time, so [setup] is never called and receives no value for any
    keyword. *)
Theorem packages_repeated_rejected :
  setup_keyword "packages" setup_py =
    [ Call (Name "find_packages") []
        [("include", ListE [Str "llamamoonlight"; Str "llamamoonlight.*"])];
      Call (Name "find_packages") [] [("where", Str "src")] ]
  /\ forall (w : world) (fuel : nat),
       let r := run_script repo w fuel "setup.py" initial in
       r.1 = Raise (SyntaxError "keyword argument repeated: packages")
       /\ forall q k, received q k (events r.2) = None.
Proof.
  split; [reflexivity |]. intros w fuel. cbv zeta.
  rewrite run_setup_py. split; reflexivity.
Qed.

(** ** Stepping the interpreter *)

Lemma bind_ok {A B} (m : M A) (f : A -> M B) (st st' : state) (a : A) :
  m st = (Ok a, st') -> (m ≫= f) st = f a st'.
Proof. unfold mbind, M_bind. by intros ->. Qed.

Lemma bind_raise {A B} (m : M A) (f : A -> M B) (st st' : state) (e : exn) :
  m st = (Raise e, st') -> (m ≫= f) st = (Raise e, st').
Proof. unfold mbind, M_bind. by intros ->. Qed.

Lemma cached_miss (load : string -> M unit) (name : string) (st : state) :
  sys_modules st !! name = None -> cached load name st = load name st.
Proof.
  intros H. unfold cached, mbind, M_bind, get_modules. rewrite H.
  rewrite bool_decide_false; [done |]. by intros [? ?].
Qed.

Lemma cached_hit (load : string -> M unit) (name : string) (st : state) :
  is_Some (sys_modules st !! name) -> cached load name st = (Ok (), st).
Proof.
  intros H. unfold cached, mbind, M_bind, get_modules.
  by rewrite bool_decide_true.
Qed.

Lemma namespace_of_loaded (ms : gmap string module_obj) (cur : string)
    (ns : gmap string value) :
  namespace_of (<[cur := Loaded ns]> ms) cur = ns.
Proof. unfold namespace_of. by rewrite lookup_insert_eq. Qed.

Lemma bind_name_loaded (cur x : string) (v : value) (ns : gmap string value)
    (ms : gmap string module_obj) (tr : list (string * nat))
    (evs : list event) :
  bind_name cur x v (State (<[cur := Loaded ns]> ms) tr evs) =
    (Ok (), State (<[cur := Loaded (<[x := v]> ns)]> ms) tr evs).
Proof.
  unfold bind_name, mbind, M_bind, get_modules, set_modules. simpl.
  by rewrite namespace_of_loaded, insert_insert_eq.
Qed.

Lemma find_and_load_missing_submodule (tree : gmap string source) (w : world)
    (root : string) (fuel : nat) (name parent child dir : string)
    (ns : gmap string value) (st : state) :
  rpartition_dot name = Some (parent, child) ->
  sys_modules st !! parent = Some (Loaded ns) ->
  package_path ns = Some dir ->
  sys_modules st !! name = None ->
  find_in_dir tree dir child = None ->
  find_and_load tree w root (S fuel) name st =
    (Raise (ModuleNotFoundError name), st).
Proof.
  intros Hname Hparent Hpath Hmiss Hdir. cbn [find_and_load].
  rewrite Hname. unfold mbind at 1, M_bind at 1.
  rewrite cached_hit by (by rewrite Hparent).
  unfold mbind, M_bind, get_modules. rewrite Hmiss.
  rewrite bool_decide_false by (by intros [? ?]).
  unfold find_spec. by rewrite Hname, Hparent, Hpath, Hdir.
Qed.

(** A top-level module found in the tree: it is entered in [sys.modules],
    its body runs, and a failure takes it out again. *)
Lemma find_and_load_top_source (tree : gmap string source) (w : world)
    (root : string) (fuel : nat) (name : string) (src : source)
    (pkgdir : option string) (code : list (nat * stmt)) (st : state) :
  rpartition_dot name = None ->
  sys_modules st !! name = None ->
  find_in_dir tree root name = Some (FoundSource src pkgdir) ->
  compile src = Ok code ->
  find_and_load tree w root (S fuel) name st =
    (on_failure (run_code w (cached (find_and_load tree w root fuel)) name code)
       (unload name);;
     set_parent_attr name)
      {| sys_modules :=
           <[name := Loaded (module_namespace name pkgdir)]> (sys_modules st);
         trace := trace st;
         events := events st |}.
Proof.
  intros Hname Hmiss Hfind Hcode. cbn [find_and_load]. rewrite Hname.
  unfold mbind at 1, M_bind at 1. cbn [mret M_ret].
  unfold mbind at 1, M_bind at 1, get_modules at 1. rewrite Hmiss.
  rewrite bool_decide_false by (by intros [? ?]).
  unfold find_spec. rewrite Hname, Hfind.
  unfold mbind at 1, M_bind at 1, set_modules at 1.
  unfold lift. rewrite Hcode. reflexivity.
Qed.

Lemma exec_assign_str (w : world) (imp : string -> M unit) (cur x s : string)
    (ns : gmap string value) (ms : gmap string module_obj)
    (tr : list (string * nat)) (evs : list event) :
  exec w imp cur (Assign x (Str s)) (State (<[cur := Loaded ns]> ms) tr evs) =
    (Ok (), State (<[cur := Loaded (<[x := VStr s]> ns)]> ms) tr evs).
Proof.
  cbn [exec eval]. erewrite bind_ok by reflexivity. apply bind_name_loaded.
Qed.

(** ** Importing the package *)

(** The body of [__init__.py], run as package [llamamoonlight] with fuel
    left for one more load: lines 1 and 5 bind [__doc__] and
    [__version__], line 7 looks for [llamamoonlight.client] along the
    package path and does not find it. *)
Lemma init_py_body (w : world) (fuel : nat) (ms : gmap string module_obj)
    (tr : list (string * nat)) (evs : list event) :
  ms !! "llamamoonlight.client" = None ->
  let ns := module_namespace "llamamoonlight" (Some "llamamoonlight") in
  run_code w (cached (find_and_load repo w "" (S fuel))) "llamamoonlight"
    (parse init_py) (State (<["llamamoonlight" := Loaded ns]> ms) tr evs) =
  (Raise (ModuleNotFoundError "llamamoonlight.client"),
   State (<["llamamoonlight" :=
              Loaded (<["__version__" := VStr "0.1.0"]>
                (<["__doc__" := VStr "
llamamoonlight - A powerful tool for working with moonlight data
"]> ns))]> ms)
     (("llamamoonlight", 7) :: ("llamamoonlight", 5)
        :: ("llamamoonlight", 1) :: tr) evs).
Proof.
  intros Hclient ns.
  change (parse init_py) with
    [ (1, Expr (Str "
llamamoonlight - A powerful tool for working with moonlight data
"));
      (5, Assign "__version__" (Str "0.1.0"));
      (7, ImportFrom 1 "client" ["Client"; "Config"]);
      (9, Assign "__all__" (ListE [Str "Client"; Str "Config"])) ].
  unfold run_code.
  erewrite bind_ok by reflexivity.
  erewrite bind_ok by apply bind_name_loaded.
  cbn [each].
  erewrite bind_ok;
    [| unfold exec_line; erewrite bind_ok by reflexivity;
       apply exec_assign_str].
  apply bind_raise.
  unfold exec_line. erewrite bind_ok by reflexivity. cbn [fst snd exec].
  unfold import_from. erewrite bind_ok.
  2:{ unfold resolve_name. erewrite bind_ok by reflexivity.
      cbn [sys_modules]. rewrite namespace_of_loaded. reflexivity. }
  apply bind_raise. rewrite cached_miss.
  2:{ cbn [sys_modules]. by rewrite lookup_insert_ne. }
  eapply find_and_load_missing_submodule.
  - reflexivity.
  - cbn [sys_modules]. apply lookup_insert_eq.
  - reflexivity.
  - cbn [sys_modules]. by rewrite lookup_insert_ne.
  - reflexivity.
Qed.

(** C1, as stated, fails: the import is not unconditional.  In an
    interpreter that already holds a module [llamamoonlight.client] in
    [sys.modules], here a stub that binds the two names, line 7 finds it
    there and the import of the package succeeds. *)
Lemma import_succeeds_client_preloaded :
  let stub := Loaded (<["Config" := VStr "stub"]>
                        (<["Client" := VStr "stub"]> ∅)) in
  let st := {| sys_modules := {["llamamoonlight.client" := stub]};
               trace := []; events := [] |} in
  let r := import_top repo w_bare 2 "llamamoonlight" st in
  r.1 = Ok ()
  /\ r.1 <> Raise (ModuleNotFoundError "llamamoonlight.client")
  /\ trace r.2 = [ ("llamamoonlight", 9); ("llamamoonlight", 7);
                   ("llamamoonlight", 5); ("llamamoonlight", 1) ]
  /\ namespace_of (sys_modules r.2) "llamamoonlight" !! "Client" =
       Some (VStr "stub").
Proof. vm_compute. repeat split; [discriminate]. Qed.

(** C1, amended: in an interpreter started in the repository, whatever is
    installed beside it and whatever it has loaded before, as long as neither
    [llamamoonlight] nor [llamamoonlight.client] is in [sys.modules],
    [import llamamoonlight] raises ModuleNotFoundError for
    [llamamoonlight.client]: lines 1 and 5 of [__init__.py] run, line 7
    fails because the package directory holds no module [client], and
    [sys.modules] is left as it was. *)
Theorem import_llamamoonlight_fails (w : world) (n : nat) (st : state) :
  sys_modules st !! "llamamoonlight" = None ->
  sys_modules st !! "llamamoonlight.client" = None ->
  import_top repo w (2 + n) "llamamoonlight" st =
    (Raise (ModuleNotFoundError "llamamoonlight.client"),
     {| sys_modules := sys_modules st;
        trace := [ ("llamamoonlight", 7); ("llamamoonlight", 5);
                   ("llamamoonlight", 1) ] ++ trace st;
        events := events st |})
  /\ find_in_dir repo "llamamoonlight" "client" = None.
Proof.
  intros Hpkg Hclient. split; [| reflexivity].
  destruct st as [ms tr evs]. simpl in Hpkg, Hclient.
  unfold import_top, import_module. rewrite cached_miss by done.
  change (2 + n) with (S (S n)).
  rewrite (find_and_load_top_source repo w "" (S n) "llamamoonlight" init_py
             (Some "llamamoonlight") (parse init_py)) by done.
  cbn [sys_modules trace events].
  unfold mbind, M_bind, on_failure. rewrite init_py_body by done.
  unfold unload, mbind, M_bind, get_modules, set_modules.
  cbn [sys_modules trace events fst snd].
  rewrite delete_insert_eq. rewrite delete_id by done. reflexivity.
Qed.

(** In a fresh interpreter, with README.md and setuptools at hand. *)
Lemma import_llamamoonlight_fails_fresh :
  import_top repo w_ready 2 "llamamoonlight" initial =
    (Raise (ModuleNotFoundError "llamamoonlight.client"),
     {| sys_modules := ∅;
        trace := [ ("llamamoonlight", 7); ("llamamoonlight", 5);
                   ("llamamoonlight", 1) ];
        events := [] |})
  /\ find_in_dir repo "llamamoonlight" "client" = None.
Proof.
  apply (import_llamamoonlight_fails w_ready 0 initial); reflexivity.
Defined.

(** With too little fuel the model gives up; it never reports success. *)
Lemma import_llamamoonlight_never_ok (w : world) (fuel : nat) :
  (import_top repo w fuel "llamamoonlight" initial).1 <> Ok ().
Proof. destruct fuel as [| [| n]]; vm_compute; discriminate. Qed.

(** ** Which file has statements, and which runs any *)

(** C3, as stated, fails: [setup.py] is not [__init__.py] and it has
    statements. *)
Lemma setup_py_has_statements :
  ~ (forall path src,
       repo !! path = Some src ->
       path <> "llamamoonlight/__init__.py" ->
       statements src = []).
Proof.
  intros H.
  assert (Hnone : statements setup_py = [])
    by (apply (H "setup.py"); [apply repo_setup_py | discriminate]).
  discriminate Hnone.
Qed.

(** C3, amended: both files have statements, four in [__init__.py] and
    three in [setup.py] (an import, a [with] block and the [setup(...)]
    call); [__init__.py] is the only file of which a statement is ever
    executed: a run or an import of [setup.py] traces no line, an import of
    the package traces lines 1, 5 and 7. *)
Theorem only_init_py_executes :
  length (statements init_py) = 4
  /\ length (statements setup_py) = 3
  /\ (forall path src, repo !! path = Some src -> statements src <> [])
  /\ (forall w fuel,
        trace (run_script repo w fuel "setup.py" initial).2 = []
        /\ trace (import_top repo w fuel "setup" initial).2 = [])
  /\ (forall w n,
        trace (import_top repo w (S n) "llamamoonlight" initial).2 =
          [ ("llamamoonlight", 7); ("llamamoonlight", 5);
            ("llamamoonlight", 1) ]).
Proof.
  split; [reflexivity |]. split; [reflexivity |]. split; [| split].
  - intros path src [[_ ->] | [_ ->]]%repo_files; discriminate.
  - intros w fuel. rewrite run_setup_py. split; [reflexivity |].
    destruct fuel; vm_compute; reflexivity.
  - intros w [| n]; vm_compute; reflexivity.
Qed.

(** ** The version *)

(** C10: [__version__] in [__init__.py] and [version=] in [setup.py] are
    the same string, 0.1.0. *)
Theorem version_strings_agree :
  assigned "__version__" init_py = [Str "0.1.0"]
  /\ setup_keyword "version" setup_py = [Str "0.1.0"]
  /\ assigned "__version__" init_py = setup_keyword "version" setup_py.
Proof. repeat split. Qed.

(** ** Declared dependencies *)

(** What the code of the repository imports and refers to, file by file. *)
Lemma imports_setup_py : imports setup_py = ["setuptools"].
Proof. reflexivity. Qed.

Lemma imports_init_py : imports init_py = ["client"].
Proof. reflexivity. Qed.

Lemma references_setup_py :
  references setup_py =
    [ "setuptools"; "setuptools"; "setup"; "find_packages"; "open"; "fh";
      "long_description"; "fh"; "read"; "setup"; "long_description";
      "find_packages"; "find_packages" ].
Proof. reflexivity. Qed.

Lemma references_init_py :
  references init_py =
    [ "__version__"; "client"; "client"; "Client"; "Config"; "__all__" ].
Proof. reflexivity. Qed.

(** No file of the repository refers to a name of the list [names]. *)
Lemma unreferenced (names : list string) :
  Forall (fun n => n ∉ references setup_py ++ references init_py) names ->
  forall path src n,
    repo !! path = Some src -> n ∈ names -> n ∉ references src.
Proof.
  intros Hall path src n Hsrc Hn.
  rewrite Forall_forall in Hall. specialize (Hall n Hn).
  rewrite elem_of_app in Hall.
  apply repo_files in Hsrc as [[_ ->] | [_ ->]]; tauto.
Qed.

(** C4, as stated, fails: the runtime dependencies are not three. *)
Lemma install_requires_not_three : length (install_requires setup_py) <> 3.
Proof. vm_compute. discriminate. Qed.

(** C4, amended: [install_requires] lists exactly four libraries, numpy,
    pandas, requests and tqdm, and no file of the repository imports or
    otherwise names any of them. *)
Theorem install_requires_four_unreferenced :
  install_requires setup_py =
    [ "numpy>=1.20.0"; "pandas>=1.3.0"; "requests>=2.25.0"; "tqdm>=4.62.0" ]
  /\ requirement_name <$> install_requires setup_py =
       [ "numpy"; "pandas"; "requests"; "tqdm" ]
  /\ length (install_requires setup_py) = 4
  /\ forall path src r,
       repo !! path = Some src ->
       r ∈ requirement_name <$> install_requires setup_py ->
       r ∉ references src.
Proof.
  repeat (split; [reflexivity |]).
  intros path src r Hsrc Hr. revert path src r Hsrc Hr.
  apply unreferenced. apply (bool_decide_unpack _). vm_compute. exact I.
Qed.

(** C7: the extras are [dev] (pytest, pytest-cov, black, isort, flake8,
    mypy), [mlx] (mlx) and [all] (mlx, matplotlib, seaborn, scikit-learn),
    and no file of the repository imports or otherwise names any package
    they list. *)
Theorem extras_unreferenced :
  extras_require setup_py =
    [ ("dev", [ "pytest>=6.0.0"; "pytest-cov>=2.12.0"; "black>=21.5b2";
                "isort>=5.9.0"; "flake8>=3.9.0"; "mypy>=0.900" ]);
      ("mlx", [ "mlx>=0.0.5" ]);
      ("all", [ "mlx>=0.0.5"; "matplotlib>=3.4.0"; "seaborn>=0.11.0";
                "scikit-learn>=1.0.0" ]) ]
  /\ requirement_name <$> flat_map snd (extras_require setup_py) =
       [ "pytest"; "pytest-cov"; "black"; "isort"; "flake8"; "mypy";
         "mlx"; "mlx"; "matplotlib"; "seaborn"; "scikit-learn" ]
  /\ forall path src r,
       repo !! path = Some src ->
       r ∈ requirement_name <$> flat_map snd (extras_require setup_py) ->
       r ∉ references src.
Proof.
  repeat (split; [reflexivity |]).
  apply unreferenced. apply (bool_decide_unpack _). vm_compute. exact I.
Qed.

(** ** The console script *)



(** ** The exported names *)

(** C6: [Client] and [Config] are the names line 7 imports and [__all__]
    lists; no file of the repository defines either, and no file has a
    class or a function at all; after the import attempt no module is left
    that could hold them. *)
Theorem client_config_never_defined :
  imported_names init_py = ["Client"; "Config"]
  /\ dunder_all init_py = ["Client"; "Config"]
  /\ (forall path src,
        repo !! path = Some src ->
        ("Client" ∉ defines src) /\ ("Config" ∉ defines src)
        /\ classes_functions src = [])
  /\ (forall w fuel,
        sys_modules (import_top repo w fuel "llamamoonlight" initial).2 = ∅).
Proof.
  repeat (split; [reflexivity |]). split.
  - intros path src [[_ ->] | [_ ->]]%repo_files;
      (split; [| split]);
      try reflexivity; apply (bool_decide_unpack _); vm_compute; exact I.
  - intros w [| [| n]]; vm_compute; reflexivity.
Qed.

(** ** Comment lines *)

(** In any file, the statements are those of the file without its
    comments. *)
Lemma parse_from_statements (n m : nat) (src : source) :
  (parse_from n src).*2 = (parse_from m src).*2.
Proof.
  revert n m. induction src as [| [| text | span s] src IH]; intros n m;
    simpl; [done | apply IH | apply IH |].
  f_equal. apply IH.
Qed.

Lemma statements_strip (sel : string -> bool) (src : source) :
  statements (strip sel src) = statements src.
Proof.
  unfold statements, parse. generalize 1.
  induction src as [| [| text | span s] src IH]; intros n; simpl.
  - done.
  - apply IH.
  - destruct (sel text); simpl; [| apply IH].
    rewrite IH. apply parse_from_statements.
  - f_equal. apply IH.
Qed.

(** Line numbers survive as well when the comments follow the code. *)
Lemma parse_from_code_free (n : nat) (src : source) :
  code_free src = true -> parse_from n src = [].
Proof.
  revert n. induction src as [| [| text | span s] src IH]; intros n;
    simpl; try done; apply IH.
Qed.

Lemma parse_from_app_code_free (n : nat) (pre tail : source) :
  code_free tail = true -> parse_from n (pre ++ tail) = parse_from n pre.
Proof.
  intros Htail. revert n.
  induction pre as [| [| text | span s] pre IH]; intros n; simpl.
  - by apply parse_from_code_free.
  - apply IH.
  - apply IH.
  - f_equal. apply IH.
Qed.

Lemma strip_comment_free (sel : string -> bool) (src : source) :
  comment_free src = true -> strip sel src = src.
Proof.
  induction src as [| [| text | span s] src IH]; simpl; try done;
    intros H; f_equal; by apply IH.
Qed.

Lemma code_free_strip (sel : string -> bool) (src : source) :
  code_free src = true -> code_free (strip sel src) = true.
Proof.
  induction src as [| [| text | span s] src IH]; simpl; try done.
  destruct (sel text); simpl; done.
Qed.

Lemma parse_strip_trailing (sel : string -> bool) (pre tail : source) :
  comment_free pre = true -> code_free tail = true ->
  parse (strip sel (pre ++ tail)) = parse (pre ++ tail).
Proof.
  intros Hpre Htail. unfold parse, strip.
  rewrite List.filter_app. fold (strip sel pre) (strip sel tail).
  rewrite (strip_comment_free sel pre Hpre).
  rewrite !parse_from_app_code_free; auto using code_free_strip.
Qed.

Lemma parse_strip_init_py (sel : string -> bool) :
  parse (strip sel init_py) = parse init_py.
Proof.
  change init_py with (take 8 init_py ++ drop 8 init_py).
  by apply parse_strip_trailing.
Qed.

Lemma parse_strip_setup_py (sel : string -> bool) :
  parse (strip sel setup_py) = parse setup_py.
Proof. by apply parse_strip_trailing. Qed.

Lemma same_code_strip_repo (sel : string -> bool) :
  same_code (strip sel <$> repo) repo.
Proof.
  intros path. rewrite lookup_fmap.
  destruct (repo !! path) as [src |] eqn:Hsrc; [| done]. simpl. f_equal.
  apply repo_files in Hsrc as [[_ ->] | [_ ->]];
    auto using parse_strip_init_py, parse_strip_setup_py.
Qed.

(** The interpreter reads a file only through [parse]. *)
Lemma compile_same_parse (s1 s2 : source) :
  parse s1 = parse s2 -> compile s1 = compile s2.
Proof. unfold compile. by intros ->. Qed.

Lemma find_in_dir_same_code (t1 t2 : gmap string source) (dir child : string) :
  same_code t1 t2 ->
  same_found (find_in_dir t1 dir child) (find_in_dir t2 dir child).
Proof.
  intros H. unfold find_in_dir.
  pose proof (H (path_join dir child +:+ "/__init__.py")) as Hpkg.
  pose proof (H (path_join dir child +:+ ".py")) as Hmod.
  destruct (t1 !! (path_join dir child +:+ "/__init__.py")),
           (t2 !! (path_join dir child +:+ "/__init__.py"));
    simpl in Hpkg; try discriminate.
  - split; congruence.
  - destruct (t1 !! (path_join dir child +:+ ".py")),
             (t2 !! (path_join dir child +:+ ".py"));
      simpl in Hmod; try discriminate; simpl; [split; congruence | done].
Qed.

Lemma find_spec_same_code (t1 t2 : gmap string source) (w : world)
    (root : string) (ms : gmap string module_obj) (name : string) :
  same_code t1 t2 ->
  same_found (find_spec t1 w root ms name) (find_spec t2 w root ms name).
Proof.
  intros H. unfold find_spec.
  destruct (rpartition_dot name) as [[parent child] |].
  - destruct (ms !! parent) as [[| ns] |]; simpl; try done.
    + by case_bool_decide.
    + destruct (package_path ns); [by apply find_in_dir_same_code | done].
  - pose proof (find_in_dir_same_code t1 t2 root name H) as Hd.
    destruct (find_in_dir t1 root name) as [[s1 d1 |] |],
             (find_in_dir t2 root name) as [[s2 d2 |] |];
      simpl in Hd; try done.
    by case_bool_decide.
Qed.

Lemma find_and_load_same_code (t1 t2 : gmap string source) (w : world)
    (root : string) :
  same_code t1 t2 ->
  forall fuel, find_and_load t1 w root fuel = find_and_load t2 w root fuel.
Proof.
  intros H. induction fuel as [| fuel IH]; [done |].
  extensionality name. extensionality st. simpl. rewrite IH.
  unfold mbind, M_bind.
  destruct (match rpartition_dot name with
            | Some (parent, _) => cached (find_and_load t2 w root fuel) parent
            | None => mret ()
            end st) as [[[] | e | |] st']; try done.
  unfold get_modules. case_bool_decide; [done |].
  pose proof (find_spec_same_code t1 t2 w root (sys_modules st') name H) as Hf.
  destruct (find_spec t1 w root (sys_modules st') name) as [[s1 d1 |] |],
           (find_spec t2 w root (sys_modules st') name) as [[s2 d2 |] |];
    simpl in Hf; try done.
  destruct Hf as [Hparse ->]. unfold lift.
  by rewrite (compile_same_parse s1 s2 Hparse).
Qed.

Lemma import_top_same_code (t1 t2 : gmap string source) (w : world)
    (fuel : nat) (name : string) (st : state) :
  same_code t1 t2 ->
  import_top t1 w fuel name st = import_top t2 w fuel name st.
Proof.
  intros H. unfold import_top, import_module.
  by rewrite (find_and_load_same_code t1 t2 w "" H).
Qed.

Lemma run_script_same_code (t1 t2 : gmap string source) (w : world)
    (fuel : nat) (path : string) (st : state) :
  same_code t1 t2 ->
  run_script t1 w fuel path st = run_script t2 w fuel path st.
Proof.
  intros H. unfold run_script, import_module.
  rewrite (find_and_load_same_code t1 t2 w (dirname path) H).
  pose proof (H path) as Hpath.
  destruct (t1 !! path) as [s1 |], (t2 !! path) as [s2 |];
    simpl in Hpath; try done.
  injection Hpath as Hparse.
  unfold mbind, M_bind, lift, get_modules, set_modules.
  by rewrite (compile_same_parse s1 s2 Hparse).
Qed.

(** Whichever comment lines are taken out of the two files, every run of a
    script and every import behaves the same, in every world, with every
    fuel and from every interpreter state. *)
Lemma strip_repo_equivalent (sel : string -> bool) (w : world) (fuel : nat)
    (st : state) :
  (forall path,
     run_script (strip sel <$> repo) w fuel path st =
       run_script repo w fuel path st)
  /\ (forall name,
        import_top (strip sel <$> repo) w fuel name st =
          import_top repo w fuel name st).
Proof.
  split; intros;
    auto using run_script_same_code, import_top_same_code,
      same_code_strip_repo.
Qed.

(** C8: every comment line of the two files is an update marker, 8 of them
    in [__init__.py] and 32 in [setup.py]; taking them out shortens the
    files to 18 and 99 lines and changes nothing that can be observed:
    every run of a script and every import gives the same result, the same
    modules, the same traced lines and the same events, in every world,
    with every fuel and from every interpreter state. *)
Theorem update_markers_no_logic :
  List.filter is_update_marker (comment_lines init_py) = comment_lines init_py
  /\ length (comment_lines init_py) = 8
  /\ List.filter is_update_marker (comment_lines setup_py)
       = comment_lines setup_py
  /\ length (comment_lines setup_py) = 32
  /\ physical_lines (strip is_update_marker init_py) = 18
  /\ physical_lines (strip is_update_marker setup_py) = 99
  /\ forall (w : world) (fuel : nat) (st : state),
       (forall path,
          run_script (strip is_update_marker <$> repo) w fuel path st =
            run_script repo w fuel path st)
       /\ (forall name,
             import_top (strip is_update_marker <$> repo) w fuel name st =
               import_top repo w fuel name st).
Proof.
  repeat (split; [reflexivity |]).
  intros w fuel st. apply strip_repo_equivalent.
Qed.

(** * Further properties *)

(** ** The package in other trees *)

Lemma find_package_in (tree : gmap string source) :
  tree !! "llamamoonlight/__init__.py" = Some init_py ->
  find_in_dir tree "" "llamamoonlight" =
    Some (FoundSource init_py (Some "llamamoonlight")).
Proof.
  intros H. unfold find_in_dir.
  change (path_join "" "llamamoonlight" +:+ "/__init__.py")
    with "llamamoonlight/__init__.py".
  by rewrite H.
Qed.

Lemma find_client_in (tree : gmap string source) :
  tree !! "llamamoonlight/client/__init__.py" = None ->
  tree !! "llamamoonlight/client.py" = None ->
  find_in_dir tree "llamamoonlight" "client" = None.
Proof.
  intros Hpkg Hmod. unfold find_in_dir.
  change (path_join "llamamoonlight" "client" +:+ "/__init__.py")
    with "llamamoonlight/client/__init__.py".
  change (path_join "llamamoonlight" "client" +:+ ".py")
    with "llamamoonlight/client.py".
  by rewrite Hpkg, Hmod.
Qed.

(** The first two statements of [__init__.py], in whatever module runs
    them. *)
Lemma init_py_head (w : world) (imp : string -> M unit) (cur : string)
    (ns : gmap string value) (ms : gmap string module_obj)
    (tr : list (string * nat)) (evs : list event) :
  run_code w imp cur (parse init_py)
    (State (<[cur := Loaded ns]> ms) tr evs) =
  (exec_line w imp cur (7, ImportFrom 1 "client" ["Client"; "Config"]);;
   each (exec_line w imp cur)
     [ (9, Assign "__all__" (ListE [Str "Client"; Str "Config"])) ])
    (State (<[cur :=
                Loaded (<["__version__" := VStr "0.1.0"]>
                  (<["__doc__" := VStr "
llamamoonlight - A powerful tool for working with moonlight data
"]> ns))]> ms)
       ((cur, 5) :: (cur, 1) :: tr) evs).
Proof.
  change (parse init_py) with
    [ (1, Expr (Str "
llamamoonlight - A powerful tool for working with moonlight data
"));
      (5, Assign "__version__" (Str "0.1.0"));
      (7, ImportFrom 1 "client" ["Client"; "Config"]);
      (9, Assign "__all__" (ListE [Str "Client"; Str "Config"])) ].
  unfold run_code.
  erewrite bind_ok by reflexivity.
  erewrite bind_ok by apply bind_name_loaded.
  cbn [each].
  erewrite bind_ok;
    [| unfold exec_line; erewrite bind_ok by reflexivity;
       apply exec_assign_str].
  reflexivity.
Qed.

Lemma import_package_raises_in (tree : gmap string source) (w : world)
    (n : nat) (st : state) :
  tree !! "llamamoonlight/__init__.py" = Some init_py ->
  tree !! "llamamoonlight/client/__init__.py" = None ->
  tree !! "llamamoonlight/client.py" = None ->
  sys_modules st !! "llamamoonlight" = None ->
  sys_modules st !! "llamamoonlight.client" = None ->
  import_top tree w (2 + n) "llamamoonlight" st =
    (Raise (ModuleNotFoundError "llamamoonlight.client"),
     {| sys_modules := sys_modules st;
        trace := [ ("llamamoonlight", 7); ("llamamoonlight", 5);
                   ("llamamoonlight", 1) ] ++ trace st;
        events := events st |}).
Proof.
  intros Hinit Hcpkg Hcmod Hpkg Hclient.
  destruct st as [ms tr evs]. simpl in Hpkg, Hclient.
  unfold import_top, import_module. rewrite cached_miss by done.
  change (2 + n) with (S (S n)).
  rewrite (find_and_load_top_source tree w "" (S n) "llamamoonlight" init_py
             (Some "llamamoonlight") (parse init_py));
    [| done | done | by apply find_package_in | done].
  cbn [sys_modules trace events].
  assert (Hrun :
    run_code w (cached (find_and_load tree w "" (S n))) "llamamoonlight"
      (parse init_py)
      (State (<["llamamoonlight" :=
                  Loaded (module_namespace "llamamoonlight"
                            (Some "llamamoonlight"))]> ms) tr evs) =
    (Raise (ModuleNotFoundError "llamamoonlight.client"),
     State (<["llamamoonlight" :=
                Loaded (<["__version__" := VStr "0.1.0"]>
                  (<["__doc__" := VStr "
llamamoonlight - A powerful tool for working with moonlight data
"]> (module_namespace "llamamoonlight" (Some "llamamoonlight"))))]> ms)
       (("llamamoonlight", 7) :: ("llamamoonlight", 5)
          :: ("llamamoonlight", 1) :: tr) evs)).
  { rewrite init_py_head. apply bind_raise.
    unfold exec_line. erewrite bind_ok by reflexivity. cbn [fst snd exec].
    unfold import_from. erewrite bind_ok.
    2:{ unfold resolve_name. erewrite bind_ok by reflexivity.
        cbn [sys_modules]. rewrite namespace_of_loaded. reflexivity. }
    apply bind_raise. rewrite cached_miss.
    2:{ cbn [sys_modules]. by rewrite lookup_insert_ne. }
    eapply find_and_load_missing_submodule.
    - reflexivity.
    - cbn [sys_modules]. apply lookup_insert_eq.
    - reflexivity.
    - cbn [sys_modules]. by rewrite lookup_insert_ne.
    - by apply find_client_in. }
  unfold mbind, M_bind, on_failure. rewrite Hrun.
  unfold unload, mbind, M_bind, get_modules, set_modules.
  cbn [sys_modules trace events fst snd].
  rewrite delete_insert_eq. rewrite delete_id by done. reflexivity.
Qed.

(** X1: the import fails in the same way in every source tree whose
    package is the repository's, that is, whose paths starting with
    [llamamoonlight] are those of the repository with the same content,
    whatever the tree holds beside them (a [client.py] next to the package,
    say, or another [setup.py]): ModuleNotFoundError for
    [llamamoonlight.client] after lines 1 and 5, with [sys.modules] left as
    it was. *)
Theorem import_fails_without_client (tree : gmap string source) (w : world)
    (n : nat) (st : state) :
  (forall path,
     String.prefix "llamamoonlight" path = true ->
     tree !! path = repo !! path) ->
  sys_modules st !! "llamamoonlight" = None ->
  sys_modules st !! "llamamoonlight.client" = None ->
  import_top tree w (2 + n) "llamamoonlight" st =
    (Raise (ModuleNotFoundError "llamamoonlight.client"),
     {| sys_modules := sys_modules st;
        trace := [ ("llamamoonlight", 7); ("llamamoonlight", 5);
                   ("llamamoonlight", 1) ] ++ trace st;
        events := events st |}).
Proof.
  intros Htree. apply import_package_raises_in; by rewrite Htree.
Qed.

(** A module [client.py] beside the package, not in it, does not help. *)
Lemma import_fails_without_client_beside :
  import_top
    (<["client.py" :=
         [ Code 1 (Assign "Client" (Str "stand-in"));
           Code 1 (Assign "Config" (Str "stand-in")) ]]> repo)
    w_ready 2 "llamamoonlight" initial =
    (Raise (ModuleNotFoundError "llamamoonlight.client"),
     {| sys_modules := ∅;
        trace := [ ("llamamoonlight", 7); ("llamamoonlight", 5);
                   ("llamamoonlight", 1) ];
        events := [] |}).
Proof.
  apply (import_fails_without_client _ w_ready 0 initial);
    [| reflexivity | reflexivity].
  intros path Hpath. apply lookup_insert_ne. by intros <-.
Defined.

(** X2: run as a script, from whatever path of whatever tree,
    [__init__.py] ends in ImportError, not ModuleNotFoundError: line 7 has
    no parent package to import from.  Lines 1 and 5 have run, so
    [__main__] holds [__doc__] and [__version__]; nothing is imported and
    nothing happens outside. *)
Theorem init_py_script_fails (tree : gmap string source) (w : world)
    (fuel : nat) (path : string) (st : state) :
  tree !! path = Some init_py ->
  run_script tree w fuel path st =
    (Raise (ImportError
              "attempted relative import with no known parent package"),
     {| sys_modules :=
          <["__main__" :=
              Loaded (<["__version__" := VStr "0.1.0"]>
                (<["__doc__" := VStr "
llamamoonlight - A powerful tool for working with moonlight data
"]> main_namespace))]> (sys_modules st);
        trace := [ ("__main__", 7); ("__main__", 5); ("__main__", 1) ]
                 ++ trace st;
        events := events st |}).
Proof.
  intros Hpath. destruct st as [ms tr evs]. unfold run_script.
  rewrite Hpath.
  erewrite bind_ok by reflexivity. erewrite bind_ok by reflexivity.
  erewrite bind_ok by reflexivity.
  cbn [sys_modules trace events]. rewrite init_py_head.
  apply bind_raise. unfold exec_line. erewrite bind_ok by reflexivity.
  cbn [fst snd exec]. unfold import_from. apply bind_raise.
  unfold resolve_name. erewrite bind_ok by reflexivity.
  cbn [sys_modules]. rewrite namespace_of_loaded. reflexivity.
Qed.

Lemma init_py_script_fails_repo :
  run_script repo w_ready 0 "llamamoonlight/__init__.py" initial =
    (Raise (ImportError
              "attempted relative import with no known parent package"),
     {| sys_modules :=
          <["__main__" :=
              Loaded (<["__version__" := VStr "0.1.0"]>
                (<["__doc__" := VStr "
llamamoonlight - A powerful tool for working with moonlight data
"]> main_namespace))]> ∅;
        trace := [ ("__main__", 7); ("__main__", 5); ("__main__", 1) ];
        events := [] |}).
Proof.
  apply (init_py_script_fails repo w_ready 0 "llamamoonlight/__init__.py"
           initial).
  reflexivity.
Defined.

(** X3: adding [llamamoonlight/cli.py] to the package does not make the
    console script loadable.  In every tree whose paths starting with
    [llamamoonlight] are those of the repository, but for a
    [llamamoonlight/cli.py] of whatever content, loading
    [llamamoonlight.cli:main] imports the package first, and that fails on
    line 7 of [__init__.py]: [cli.py] is never looked for. *)
Theorem console_script_needs_client (tree : gmap string source) (w : world)
    (n : nat) (st : state) :
  (forall path,
     String.prefix "llamamoonlight" path = true ->
     path <> "llamamoonlight/cli.py" ->
     tree !! path = repo !! path) ->
  sys_modules st !! "llamamoonlight" = None ->
  sys_modules st !! "llamamoonlight.client" = None ->
  sys_modules st !! "llamamoonlight.cli" = None ->
  load_object tree w "" (3 + n) "llamamoonlight.cli" "main" st =
    (Raise (ModuleNotFoundError "llamamoonlight.client"),
     {| sys_modules := sys_modules st;
        trace := [ ("llamamoonlight", 7); ("llamamoonlight", 5);
                   ("llamamoonlight", 1) ] ++ trace st;
        events := events st |}).
Proof.
  intros Htree Hpkg Hclient Hcli.
  unfold load_object, import_module. apply bind_raise.
  rewrite cached_miss by done.
  change (3 + n) with (S (2 + n)). remember (2 + n) as fuel eqn:Hfuel.
  cbn [find_and_load].
  change (rpartition_dot "llamamoonlight.cli")
    with (Some ("llamamoonlight", "cli")).
  apply bind_raise. subst fuel.
  apply import_package_raises_in; try done; by rewrite Htree.
Qed.

(** With a [cli.py] that defines [main]. *)
Lemma console_script_needs_client_cli :
  load_object repo_with_cli w_bare "" 3 "llamamoonlight.cli" "main" initial =
    (Raise (ModuleNotFoundError "llamamoonlight.client"),
     {| sys_modules := ∅;
        trace := [ ("llamamoonlight", 7); ("llamamoonlight", 5);
                   ("llamamoonlight", 1) ];
        events := [] |}).
Proof.
  apply (console_script_needs_client repo_with_cli w_bare 0 initial);
    [| reflexivity | reflexivity | reflexivity].
  intros path _ Hpath. by apply lookup_insert_ne.
Defined.

(** ** The repeated keyword *)

(** The keyword check passes exactly when no keyword name occurs twice. *)
Lemma repeated_keyword_None (kws : list (string * expr)) :
  repeated_keyword kws = None <-> NoDup kws.*1.
Proof.
  induction kws as [| [k e] kws IH]; simpl.
  - split; [constructor | done].
  - rewrite NoDup_cons. case_bool_decide as Hin.
    + split; [done | by intros [? _]].
    + rewrite IH. tauto.
Qed.

(** X4: [packages] is the only keyword the [setup(...)] call repeats, as
    its 11th and 17th keyword: taking out one keyword makes [setup.py]
    compile exactly when that keyword is one of these two. *)
Theorem packages_only_repeated_keyword (i : nat) :
  (exists code, compile (delete_keyword i setup_py) = Ok code)
  <-> i = 10 \/ i = 16.
Proof.
  do 17 (destruct i as [| i];
         [split;
          [vm_compute; intros [code H]; first [discriminate H | lia]
          | intros [H | H]; first [discriminate H | vm_compute; eauto] ] |]).
  split; [vm_compute; intros [code H]; discriminate H | lia].
Qed.

(** ** Python versions *)

(** Whether a version satisfies a specifier [>=N.N]. *)
Lemma version_leb_refl (v : list nat) : version_leb v v = true.
Proof.
  induction v as [| x v IH]; simpl; [done |].
  rewrite Nat.eqb_refl, IH. apply orb_true_r.
Qed.

(** X5: [python_requires] and the classifiers agree.  The one specifier
    is [>=3.8]; the classifiers advertise Python 3, 3.8, 3.9, 3.10 and
    3.11; every minor version advertised satisfies the specifier, and the
    bound of the specifier is itself one of the versions advertised. *)
Theorem python_requires_matches_classifiers :
  python_requires setup_py = [">=3.8"]
  /\ python_versions setup_py = ["3"; "3.8"; "3.9"; "3.10"; "3.11"]
  /\ forall spec,
       spec ∈ python_requires setup_py ->
       (forall v,
          v ∈ python_versions setup_py ->
          exists b r,
            lower_bound spec = Some b /\ parse_version v = Some r
            /\ (length r = 2 -> version_leb b r = true))
       /\ (exists v,
             v ∈ python_versions setup_py
             /\ lower_bound spec = parse_version v).
Proof.
  split; [reflexivity |]. split; [reflexivity |].
  intros spec Hs.
  change (python_requires setup_py) with [">=3.8"] in Hs.
  apply list_elem_of_singleton in Hs as ->. split.
  - intros v Hv.
    change (python_versions setup_py)
      with ["3"; "3.8"; "3.9"; "3.10"; "3.11"] in Hv.
    repeat (apply elem_of_cons in Hv as [-> | Hv];
            [eexists _, _; split; [reflexivity |]; split; [reflexivity |];
             intros Hlen; first [discriminate Hlen | reflexivity] |]).
    by apply elem_of_nil in Hv.
  - exists "3.8". split; [| reflexivity].
    apply (bool_decide_unpack _). vm_compute. exact I.
Qed.

(** ** Requirements *)

Lemma strip_prefix_Some (p s rest : string) :
  strip_prefix p s = Some rest -> s = p +:+ rest.
Proof.
  revert s. induction p as [| a p IH]; intros s; simpl.
  - by intros [= ->].
  - destruct s as [| b s]; [done |].
    destruct (Ascii.eqb_spec a b) as [-> |]; [| done].
    intros H. change (String b s = String b (p +:+ rest)).
    f_equal. by apply IH.
Qed.

Lemma requirement_name_chars (r : string) :
  all_chars is_name_char (requirement_name r) = true.
Proof.
  induction r as [| c r IH]; simpl; [done |].
  destruct (is_name_char c) eqn:Hc; simpl; [by rewrite Hc | done].
Qed.

Lemma split_requirement_Some (r name v : string) :
  split_requirement r = Some (name, v) ->
  r = name +:+ ">=" +:+ v
  /\ name <> "" /\ v <> ""
  /\ all_chars is_name_char name = true
  /\ all_chars is_version_char v = true.
Proof.
  unfold split_requirement.
  destruct (strip_prefix (requirement_name r) r) as [rest |] eqn:Hrest;
    [| done].
  destruct (strip_prefix ">=" rest) as [v' |] eqn:Hv; [| done].
  destruct (String.eqb_spec (requirement_name r) "") as [| Hname];
    [done |].
  destruct (String.eqb_spec v' "") as [| Hne]; [done |].
  simpl. destruct (all_chars is_version_char v') eqn:Hchars; [| done].
  intros [= <- <-].
  apply strip_prefix_Some in Hrest, Hv. subst rest.
  auto using requirement_name_chars.
Qed.

(** X6: every requirement [setup.py] declares, in [install_requires] and
    in each extra, has the form [name>=version]: a non-empty name, then
    [>=], then a non-empty version of digits, lower-case letters and dots.
    None pins a version or bounds one from above. *)
Theorem requirements_are_lower_bounds (r : string) :
  r ∈ all_requirements setup_py ->
  exists name v,
    r = name +:+ ">=" +:+ v
    /\ name <> "" /\ v <> ""
    /\ all_chars is_name_char name = true
    /\ all_chars is_version_char v = true.
Proof.
  intros Hr.
  assert (Hall : Forall (fun r => is_Some (split_requirement r))
                   (all_requirements setup_py))
    by (apply (bool_decide_unpack _); vm_compute; exact I).
  rewrite Forall_forall in Hall.
  destruct (Hall r Hr) as [[name v] Hsplit].
  exists name, v. by apply split_requirement_Some.
Qed.

(** The first runtime dependency. *)
Lemma requirements_are_lower_bounds_numpy :
  exists name v,
    "numpy>=1.20.0" = name +:+ ">=" +:+ v
    /\ name <> "" /\ v <> ""
    /\ all_chars is_name_char name = true
    /\ all_chars is_version_char v = true.
Proof.
  apply (requirements_are_lower_bounds "numpy>=1.20.0").
  apply (bool_decide_unpack _). vm_compute. exact I.
Defined.

(** X7: how the extras relate.  Everything under [mlx] is also under
    [all]; [dev] and [all] share no distribution; no runtime dependency
    is listed again under an extra; within [install_requires], [dev] and
    [all] no distribution is named twice. *)
Theorem extras_relations :
  extra "mlx" setup_py ⊆ extra "all" setup_py
  /\ Forall (fun n => n ∉ requirement_name <$> extra "all" setup_py)
       (requirement_name <$> extra "dev" setup_py)
  /\ Forall (fun n => n ∉ requirement_name
                         <$> flat_map snd (extras_require setup_py))
       (requirement_name <$> install_requires setup_py)
  /\ NoDup (requirement_name <$> install_requires setup_py)
  /\ NoDup (requirement_name <$> extra "dev" setup_py)
  /\ NoDup (requirement_name <$> extra "all" setup_py).
Proof.
  repeat split; apply (bool_decide_unpack _); vm_compute; exact I.
Qed.

(** ** Lines after the last statement *)



